(** * cyipopt.deprecated: deprecation shim of CyIpopt

    A shallow embedding of [src/cyipopt/deprecated.py]: the message formatter
    [generate_deprecation_warning_msg], the decorator [deprecated_warning]
    with its inner [decorate] and [wrapper], and the substitute class
    [problem]. *)

From Stdlib Require Import String Ascii ZArith.
From stdpp Require Import gmap strings functions.

(** ** Python strings *)

(** [s.startswith(p)]. *)
Fixpoint startswith (p s : string) : bool :=
  match p, s with
  | EmptyString, _ => true
  | String _ _, EmptyString => false
  | String a p', String b s' => Ascii.eqb a b && startswith p' s'
  end.

(** [sub in s] for two strings. *)
Fixpoint contains (sub s : string) : bool :=
  startswith sub s ||
  match s with
  | EmptyString => false
  | String _ s' => contains sub s'
  end.

(** [c in s] for a single character. *)
Fixpoint has_char (c : ascii) (s : string) : bool :=
  match s with
  | EmptyString => false
  | String a s' => Ascii.eqb c a || has_char c s'
  end.

(** ** Warnings, exceptions and results *)

Inductive category : Type :=
| UserWarning
| DeprecationWarning
| FutureWarning
| RuntimeWarning.

(** The warning of one call of [warnings.warn(message, category)]. *)
Record warning : Type := Warning {
  w_message : string;
  w_category : category
}.

(** The action that the warning filters select for a warning. *)
Inductive action : Type :=
| ActDefault
| ActError
| ActIgnore
| ActAlways
| ActModule
| ActOnce.

#[global] Instance action_eq_dec : EqDecision action.
Proof. solve_decision. Defined.

(** [TypeError] is only ever raised by the interpreter here, with a text of
    its own; [WarningRaised] is a warning that the filters turned into an
    exception. *)
Inductive exn : Type :=
| ValueError (msg : string)
| AttributeError (attr : string)
| TypeError
| WarningRaised (x : warning)
| OtherError (cls msg : string).

Inductive result (A : Type) : Type :=
| Ok (a : A)
| Raise (e : exn).

Arguments Ok {A} a.
Arguments Raise {A} e.

(** [x is not None] *)
Definition is_not_None {A : Type} (x : option A) : bool :=
  match x with
  | Some _ => true
  | None => false
  end.

(** ** The message formatter (deprecated.py, lines 76-114) *)

Definition generate_deprecation_warning_msg
    (what old_name new_name : string) (class_name : option string)
  : result string :=
  if String.eqb what "class" && is_not_None class_name then
    let msg := "Incorrect use of function arguments." in
    Raise (ValueError msg)
  else
    let class_name_msg :=
      match class_name with
      | Some c => "in class '" +:+ c +:+ "' "
      | None => EmptyString
      end in
    let msg :=
      "The " +:+ what +:+ " named '" +:+ old_name +:+ "' " +:+ class_name_msg
      +:+ "will soon be "
      +:+ "deprecated in CyIpopt. Please replace all uses and use '"
      +:+ new_name +:+ "' "
      +:+ "going forward." in
    Ok msg.

(** ** Values, objects and the ambient state *)

(** Object identities. *)
Definition loc : Type := positive.

(** A class object, as far as this module looks at one: its [__name__],
    which every class has. *)
Record pyclass : Type := PyClass { cls_name : string }.

#[global] Instance pyclass_eq_dec : EqDecision pyclass.
Proof. solve_decision. Defined.

(** The attributes of a callable object that the module or [functools.wraps]
    reads or writes.  [None] is an absent attribute, except for [__doc__],
    which every object has and where it is Python's [None].  [attr_objclass]
    is [__objclass__], a reference to the class a method descriptor belongs
    to; [attr_has_dict] tells whether the object carries an instance [__dict__]
    (functions do, method descriptors do not), in which [__objclass__] and
    [__wrapped__] then live. *)
Record pyobject : Type := PyObject {
  attr_module : option string;
  attr_name : option string;
  attr_qualname : option string;
  attr_doc : option string;
  attr_objclass : option loc;
  attr_wrapped : option loc;
  attr_has_dict : bool
}.

(** Values passed to and returned by callables. *)
Inductive value : Type :=
| VNone
| VInt (z : Z)
| VStr (s : string)
| VFunc (l : loc)
| VInstance (cls : pyclass) (l : loc).

(** [isinstance(v, c)]; the classes of this module have no subclasses. *)
Definition isinstance (v : value) (c : pyclass) : bool :=
  match v with
  | VInstance c' _ => bool_decide (c' = c)
  | _ => false
  end.

Section Shim.

(** Whatever state callables use besides the objects and warnings below. *)
Context {Ext : Type}.

(** The state a call runs in: the callable objects, the class objects by
    identity, the action that the warning filters of the caller select for
    each warning, the warnings handed to [warnings.warn] so far (oldest
    first), and the rest. *)
Record World : Type := mkWorld {
  heap : gmap loc pyobject;
  classes : loc -> pyclass;
  filters : warning -> action;
  warnings_log : list warning;
  other : Ext
}.

Definition set_heap (h : gmap loc pyobject) (w : World) : World :=
  mkWorld h (classes w) (filters w) (warnings_log w) (other w).

Definition set_classes (c : loc -> pyclass) (w : World) : World :=
  mkWorld (heap w) c (filters w) (warnings_log w) (other w).

Definition set_filters (f : warning -> action) (w : World) : World :=
  mkWorld (heap w) (classes w) f (warnings_log w) (other w).

Definition emit (x : warning) (w : World) : World :=
  mkWorld (heap w) (classes w) (filters w) (warnings_log w ++ [x]) (other w).

(** Computations: state passing with exceptions. *)
Definition M (A : Type) : Type := World -> result A * World.

Definition ret {A : Type} (a : A) : M A := fun w => (Ok a, w).

Definition raise {A : Type} (e : exn) : M A := fun w => (Raise e, w).

Definition bind {A B : Type} (c : M A) (k : A -> M B) : M B :=
  fun w =>
    match c w with
    | (Ok a, w') => k a w'
    | (Raise e, w') => (Raise e, w')
    end.

(** A call of a function that touches no state. *)
Definition pure_call {A : Type} (r : result A) : M A := fun w => (r, w).

End Shim.

Arguments World : clear implicits.
Arguments M : clear implicits.

Notation "x <- c ;; k" := (bind c (fun x => k))
  (at level 90, c at next level, right associativity).
Notation "c ;;; k" := (bind c (fun _ => k))
  (at level 90, right associativity).

Section Decorator.

Context {Ext : Type}.

(** *** Built-ins and standard library used by the module *)

Definition lookup_attr {A : Type} (get : pyobject -> option A) (l : loc)
    (w : World Ext) : option A :=
  heap w !! l ≫= get.

(** [hasattr(obj, "__objclass__")] *)
Definition hasattr_objclass (l : loc) : M Ext bool :=
  fun w => (Ok (is_not_None (lookup_attr attr_objclass l w)), w).

(** [getattr(obj, "__objclass__")] *)
Definition getattr_objclass (l : loc) : M Ext loc :=
  fun w =>
    match lookup_attr attr_objclass l w with
    | Some c => ret c w
    | None => raise (AttributeError "__objclass__") w
    end.

(** [getattr(obj, "__name__")] *)
Definition getattr_name (l : loc) : M Ext string :=
  fun w =>
    match lookup_attr attr_name l w with
    | Some s => ret s w
    | None => raise (AttributeError "__name__") w
    end.

(** [cls.__name__] for a class object. *)
Definition class_name_of (cls : loc) : M Ext string :=
  fun w => ret (cls_name (classes w cls)) w.

(** [warnings.warn(msg, category)]: the warning is handed to the warning
    machinery, and the action that the filters select for it decides what
    the call does: under [error] the warning is raised as an exception,
    under every other action the call returns, whether the warning is shown
    or not. *)
Definition warnings_warn (msg : string) (c : category) : M Ext unit :=
  fun w =>
    let x := Warning msg c in
    match filters w x with
    | ActError => raise (WarningRaised x) (emit x w)
    | _ => ret tt (emit x w)
    end.

(** A callable object: its identity and what calling it with positional
    arguments [args] and keyword arguments [kwargs] does. *)
Record callable : Type := Callable {
  c_id : loc;
  c_call : list value -> list (string * value) -> M Ext value
}.

(** The function object a [def] statement creates. *)
Definition new_function (module name qualname : string) : M Ext loc :=
  fun w =>
    let l := fresh (dom (heap w)) in
    let o := PyObject (Some module) (Some name) (Some qualname) None
                      None None true in
    (Ok l, set_heap (<[l := o]> (heap w)) w).

Definition or_else {A : Type} (new old : option A) : option A :=
  match new with
  | Some a => Some a
  | None => old
  end.

(** [functools.update_wrapper(wrapper, wrapped)], which [@wraps(wrapped)]
    applies: every attribute of [WRAPPER_ASSIGNMENTS] that [wrapped] has is
    assigned to [wrapper], the instance [__dict__] of [wrapped] is merged
    into the one of [wrapper], and [wrapper.__wrapped__] is set. *)
Definition update_wrapper (wrapper wrapped : loc) : M Ext unit :=
  fun w =>
    match heap w !! wrapper with
    | None => (Ok tt, w)
    | Some o =>
        let src := heap w !! wrapped in
        let in_dict {A : Type} (get : pyobject -> option A) : option A :=
          o' ← src; if attr_has_dict o' then get o' else None in
        let o1 :=
          PyObject (or_else (src ≫= attr_module) (attr_module o))
                   (or_else (src ≫= attr_name) (attr_name o))
                   (or_else (src ≫= attr_qualname) (attr_qualname o))
                   (from_option attr_doc (attr_doc o) src)
                   (or_else (in_dict attr_objclass) (attr_objclass o))
                   (Some wrapped)
                   (attr_has_dict o) in
        (Ok tt, set_heap (<[wrapper := o1]> (heap w)) w)
    end.

(** *** deprecated_warning (deprecated.py, lines 15-46) *)

Definition this_module : string := "cyipopt.deprecated".

Definition wrapper (func : callable) (old_name new_name : string)
    (args : list value) (kwargs : list (string * value)) : M Ext value :=
  is_method <- hasattr_objclass (c_id func) ;;
  msg <- (if (is_method : bool) then
            let what := "method" in
            cls <- getattr_objclass (c_id func) ;;
            class_name <- class_name_of cls ;;
            pure_call (generate_deprecation_warning_msg what old_name new_name
                         (Some class_name))
          else
            let what := "function" in
            pure_call (generate_deprecation_warning_msg what old_name new_name
                         None)) ;;
  warnings_warn msg FutureWarning ;;;
  c_call func args kwargs.

Definition decorate (new_name : string) (func : callable) : M Ext callable :=
  w_id <- new_function this_module "wrapper"
            "deprecated_warning.<locals>.decorate.<locals>.wrapper" ;;
  update_wrapper w_id (c_id func) ;;;
  old_name <- getattr_name (c_id func) ;;
  ret (Callable w_id (wrapper func old_name new_name)).

Definition deprecated_warning (new_name : string)
  : callable -> M Ext callable :=
  decorate new_name.

(** *** problem (deprecated.py, lines 49-73) *)

Definition cls_problem : pyclass := PyClass "problem".
Definition cls_Problem : pyclass := PyClass "Problem".

(** What [ipopt_wrapper.Problem], which is not among the sources, does to
    build one of its instances from the arguments of a call: the identity of
    the new instance, or an error. *)
Variable Problem_init : list value -> list (string * value) -> M Ext loc.

(** Modelled from the spec: the replacement class [Problem] of
    [ipopt_wrapper], imported on line 9 and not among the sources; a call of
    it with [args] and [kwargs] constructs and returns an instance of the
    replacement class. *)
Definition Problem (args : list value) (kwargs : list (string * value))
  : M Ext value :=
  l <- Problem_init args kwargs ;;
  ret (VInstance cls_Problem l).

(** [k in kwargs] *)
Definition has_keyword (k : string) (kwargs : list (string * value)) : bool :=
  existsb (fun kv => String.eqb (fst kv) k) kwargs.

(** [problem.__new__], declared with the parameters [self], [*args] and
    [**kwargs]: the class is bound to [self], so a keyword argument of that
    name is a second value for the same parameter, which the interpreter
    refuses before the body runs. *)
Definition problem_new (self : pyclass)
    (args : list value) (kwargs : list (string * value)) : M Ext value :=
  if has_keyword "self" kwargs then raise TypeError
  else
    msg <- pure_call
             (generate_deprecation_warning_msg "class" "problem" "Problem" None) ;;
    warnings_warn msg FutureWarning ;;;
    Problem args kwargs.

(** [object.__init__], which [problem] inherits. *)
Definition object_init (self : value)
    (args : list value) (kwargs : list (string * value)) : M Ext unit :=
  ret tt.

(** A call of the class [problem]: the call of a class runs [__new__] and, only
    when that returned an instance of the class, [__init__]. *)
Definition problem (args : list value) (kwargs : list (string * value))
  : M Ext value :=
  obj <- problem_new cls_problem args kwargs ;;
  if isinstance obj cls_problem then
    object_init obj args kwargs ;;; ret obj
  else
    ret obj.

(** *** Vocabulary of the statements *)

(** The identity of the function object that [decorate] creates in [w]. *)
Definition wrapper_id (w : World Ext) : loc := fresh (dom (heap w)).

(** The attributes of the wrapper of an object [o] once [wraps] has run. *)
Definition wrapped_attrs (func_id : loc) (o : pyobject) : pyobject :=
  PyObject (or_else (attr_module o) (Some this_module))
           (or_else (attr_name o) (Some "wrapper"))
           (or_else (attr_qualname o)
              (Some "deprecated_warning.<locals>.decorate.<locals>.wrapper"))
           (attr_doc o)
           (if attr_has_dict o then attr_objclass o else None)
           (Some func_id)
           true.

(** The name of the class that [__objclass__] of [func] refers to in [w],
    if [func] has that attribute. *)
Definition owner_name (func : callable) (w : World Ext) : option string :=
  cls ← lookup_attr attr_objclass (c_id func) w;
  Some (cls_name (classes w cls)).

(** The formatter call that [wrapper] makes when it is called in [w]. *)
Definition wrapper_msg (func : callable) (old_name new_name : string)
    (w : World Ext) : result string :=
  match lookup_attr attr_objclass (c_id func) w with
  | Some cls =>
      generate_deprecation_warning_msg "method" old_name new_name
        (Some (cls_name (classes w cls)))
  | None =>
      generate_deprecation_warning_msg "function" old_name new_name None
  end.

End Decorator.

(** ** A client module *)

(** The class objects of the client worlds: object 9 is the class [Problem];
    every other identity stands for a class named [object]. *)
Definition client_classes : loc -> pyclass :=
  <[9%positive := PyClass "Problem"]> (fun _ => PyClass "object").

(** Filters that select the default action for every warning, and the
    filters after [warnings.simplefilter("error")]. *)
Definition default_filters : warning -> action := fun _ => ActDefault.
Definition error_filters : warning -> action := fun _ => ActError.

(** A function [old] of a client module, [def old(a, b=2): return a + b],
    as the only callable of a world with no warnings yet. *)
Definition old_function : pyobject :=
  PyObject (Some "client") (Some "old") (Some "old") (Some "Adds two numbers.")
           None None true.

Definition client_world : World unit :=
  mkWorld {[1%positive := old_function]} client_classes default_filters [] tt.

(** The client world of a caller that turns warnings into errors. *)
Definition strict_world : World unit := set_filters error_filters client_world.

Definition old_add : @callable unit :=
  Callable 1%positive
    (fun args kwargs w =>
       match args, kwargs with
       | [VInt a], [] => (Ok (VInt (a + 2)), w)
       | [VInt a; VInt b], [] => (Ok (VInt (a + b)), w)
       | [VInt a], [(k, VInt b)] =>
           if String.eqb k "b" then (Ok (VInt (a + b)), w)
           else (Raise TypeError, w)
       | _, _ => (Raise TypeError, w)
       end).

(** [o.__objclass__ = cls] *)
Definition bind_to_class (cls : loc) (o : pyobject) : pyobject :=
  PyObject (attr_module o) (attr_name o) (attr_qualname o) (attr_doc o)
           (Some cls) (attr_wrapped o) (attr_has_dict o).

(** Another body for [old]: a function that, when called, sets its own
    [__objclass__] to the class [Problem] and returns [None]. *)
Definition old_self_binding : @callable unit :=
  Callable 1%positive
    (fun args kwargs w =>
       (Ok VNone,
        set_heap (alter (bind_to_class 9%positive) 1%positive (heap w)) w)).

(** The client world after [old] was given another [__name__]. *)
Definition renamed_world : World unit :=
  mkWorld
    {[1%positive :=
        PyObject (Some "client") (Some "renamed") (Some "old")
          (Some "Adds two numbers.") None None true]}
    client_classes default_filters [] tt.

(** A method descriptor [solve] of the class [Problem], which has an
    [__objclass__] and no instance [__dict__], and a world with it. *)
Definition solve_descriptor : pyobject :=
  PyObject None (Some "solve") (Some "Problem.solve") (Some "Solves.")
           (Some 9%positive) None false.

Definition method_world : World unit :=
  mkWorld {[5%positive := solve_descriptor]} client_classes default_filters
    [] tt.

Definition solve_method : @callable unit :=
  Callable 5%positive (fun args kwargs w => (Ok VNone, w)).

(** Another body for [solve]: when called it gives its class, which stays
    its [__objclass__], the [__name__] [Solver]. *)
Definition solve_renaming_class : @callable unit :=
  Callable 5%positive
    (fun args kwargs w =>
       (Ok VNone,
        set_classes (<[9%positive := PyClass "Solver"]> (classes w)) w)).

(** A replacement class that accepts every call and builds its instance as
    object 7. *)
Definition accept_all (args : list value) (kwargs : list (string * value))
  : M unit loc :=
  ret 7%positive.

(** Decorate, then call the result twice without arguments. *)
Definition decorate_and_call_twice (new_name : string) (func : @callable unit)
  : M unit value :=
  c <- deprecated_warning new_name func ;;
  c_call c [] [] ;;;
  c_call c [] [].

(** ** Uses of the module *)

Section Uses.

Context {Ext : Type}.

(** The state after [n] calls of [c] in a row with the same arguments, by a
    caller that goes on whatever a call returns or raises. *)
Fixpoint calls (c : @callable Ext) (args : list value)
    (kwargs : list (string * value)) (n : nat) (w : World Ext) : World Ext :=
  match n with
  | O => w
  | S n' => calls c args kwargs n' (snd (c_call c args kwargs w))
  end.

(** Two decorators on one definition: [deprecated_warning(outer)] applied to
    what [deprecated_warning(inner)] returns for [func]. *)
Definition decorate_stacked (outer inner : string) (func : @callable Ext)
  : M Ext callable :=
  c1 <- deprecated_warning inner func ;;
  deprecated_warning outer c1.

(** Two definitions of a module, each with its own decorator. *)
Definition decorate_both (new_f new_g : string) (f g : @callable Ext)
  : M Ext (callable * callable) :=
  cf <- deprecated_warning new_f f ;;
  cg <- deprecated_warning new_g g ;;
  ret (cf, cg).

Variable Problem_init : list value -> list (string * value) -> M Ext loc.

(** The state after [n] constructions of [problem] in a row with the same
    arguments, whatever each returns or raises. *)
Fixpoint constructions (args : list value) (kwargs : list (string * value))
    (n : nat) (w : World Ext) : World Ext :=
  match n with
  | O => w
  | S n' =>
      constructions args kwargs n' (snd (problem Problem_init args kwargs w))
  end.

End Uses.

(** A second function of the client module, [def older(): return None]. *)
Definition older_function : pyobject :=
  PyObject (Some "client") (Some "older") (Some "older") None None None true.

Definition two_function_world : World unit :=
  mkWorld (<[3%positive := older_function]> {[1%positive := old_function]})
    client_classes default_filters [] tt.

Definition older_none : @callable unit :=
  Callable 3%positive (fun args kwargs w => (Ok VNone, w)).

(** * Properties *)

(** ** Substrings *)

Lemma startswith_spec (p s : string) :
  startswith p s = true <-> exists q, s = p +:+ q.
Proof.
  revert s. induction p as [|a p IH]; intros s; simpl.
  - split; [intros _; by exists s | done].
  - destruct s as [|b s].
    + split; [done | intros [q Hq]; discriminate].
    + rewrite andb_true_iff, IH. split.
      * intros [Hab [q ->]]. apply Ascii.eqb_eq in Hab as ->. by exists q.
      * intros [q Hq]. injection Hq as -> ->. split; [apply Ascii.eqb_refl | by exists q].
Qed.

Lemma contains_spec (sub s : string) :
  contains sub s = true <-> exists p q, s = p +:+ sub +:+ q.
Proof.
  induction s as [|b s IH]; simpl.
  - rewrite orb_false_r, startswith_spec. split.
    + intros [q Hq]. by exists EmptyString, q.
    + intros [[|c p] [q Hq]]; [by exists q | discriminate].
  - rewrite orb_true_iff, startswith_spec, IH. split.
    + intros [[q Hq] | [p [q Hq]]].
      * by exists EmptyString, q.
      * exists (String b p), q. simpl. by rewrite Hq.
    + intros [[|c p] [q Hq]].
      * left. by exists q.
      * right. simpl in Hq. injection Hq as _ Hq. by exists p, q.
Qed.

(** A substring without the character [c] cannot straddle an occurrence of
    [c]. *)
Lemma startswith_app_sep (c : ascii) (sub a b : string) :
  has_char c sub = false ->
  startswith sub (a +:+ String c b) = startswith sub a.
Proof.
  revert a. induction sub as [|y sub IH]; intros a Hc; [done |].
  simpl in Hc. apply orb_false_iff in Hc as [Hy Hsub].
  destruct a as [|x a]; simpl.
  - rewrite Ascii.eqb_sym in Hy. by rewrite Hy.
  - by rewrite IH.
Qed.

Lemma contains_app_sep (c : ascii) (sub a b : string) :
  has_char c sub = false ->
  contains sub (a +:+ String c b) = contains sub a || contains sub b.
Proof.
  intros Hc. induction a as [|x a IH].
  - change (EmptyString +:+ String c b) with (String c b).
    cbn [contains].
    rewrite <- (startswith_app_sep c sub EmptyString b Hc).
    by rewrite orb_false_r.
  - change (String x a +:+ String c b) with (String x (a +:+ String c b)).
    cbn [contains].
    change (String x (a +:+ String c b)) with (String x a +:+ String c b).
    rewrite (startswith_app_sep c sub (String x a) b Hc), IH.
    by rewrite !orb_assoc.
Qed.

Lemma append_assoc (a b c : string) : (a +:+ b) +:+ c = a +:+ b +:+ c.
Proof.
  induction a as [|x a IH]; [done |].
  change (String x ((a +:+ b) +:+ c) = String x (a +:+ b +:+ c)).
  by f_equal.
Qed.

Lemma contains_app_r (sub p s : string) :
  contains sub s = true -> contains sub (p +:+ s) = true.
Proof.
  rewrite !contains_spec. intros (a & b & ->).
  exists (p +:+ a), b. by rewrite append_assoc.
Qed.

Lemma contains_prefix (sub q : string) : contains sub (sub +:+ q) = true.
Proof. apply contains_spec. by exists EmptyString, q. Qed.

(** ** The message formatter *)

Example generate_function_problem :
  generate_deprecation_warning_msg "function" "problem" "Problem" None
  = Ok "The function named 'problem' will soon be deprecated in CyIpopt. Please replace all uses and use 'Problem' going forward.".
Proof. reflexivity. Qed.

Lemma is_not_None_true {A : Type} (x : option A) :
  is_not_None x = true <-> x <> None.
Proof. destruct x; simpl; split; congruence. Qed.

(** The validation test of line 104. *)
Lemma rejected_iff (what : string) (class_name : option string) :
  String.eqb what "class" && is_not_None class_name = true
  <-> what = "class" /\ class_name <> None.
Proof. by rewrite andb_true_iff, String.eqb_eq, is_not_None_true. Qed.

Lemma generate_rejected (what old_name new_name : string)
    (class_name : option string) :
  String.eqb what "class" && is_not_None class_name = true ->
  generate_deprecation_warning_msg what old_name new_name class_name
  = Raise (ValueError "Incorrect use of function arguments.").
Proof. unfold generate_deprecation_warning_msg. by intros ->. Qed.

Lemma generate_accepted (what old_name new_name : string)
    (class_name : option string) :
  String.eqb what "class" && is_not_None class_name = false ->
  generate_deprecation_warning_msg what old_name new_name class_name
  = Ok ("The " +:+ what +:+ " named '" +:+ old_name +:+ "' "
        +:+ match class_name with
            | Some c => "in class '" +:+ c +:+ "' "
            | None => EmptyString
            end
        +:+ "will soon be deprecated in CyIpopt. Please replace all uses and use '"
        +:+ new_name +:+ "' going forward.").
Proof. unfold generate_deprecation_warning_msg. by intros ->. Qed.

Lemma generate_other_what (what old_name new_name : string)
    (class_name : option string) :
  what <> "class" ->
  generate_deprecation_warning_msg what old_name new_name class_name
  = Ok ("The " +:+ what +:+ " named '" +:+ old_name +:+ "' "
        +:+ match class_name with
            | Some c => "in class '" +:+ c +:+ "' "
            | None => EmptyString
            end
        +:+ "will soon be deprecated in CyIpopt. Please replace all uses and use '"
        +:+ new_name +:+ "' going forward.").
Proof.
  intros Hwhat. apply generate_accepted, not_true_is_false.
  rewrite rejected_iff. by intros [? _].
Qed.

(** C1: the formatter raises [ValueError("Incorrect use of function
    arguments.")] exactly when [what == "class"] and [class_name] is not
    [None], whatever the value of [class_name]; in every other case it
    returns a string. *)
Theorem generate_raises_iff_class_with_class_name
    (what old_name new_name : string) (class_name : option string) :
  (generate_deprecation_warning_msg what old_name new_name class_name
   = Raise (ValueError "Incorrect use of function arguments.")
   <-> what = "class" /\ class_name <> None)
  /\ (~ (what = "class" /\ class_name <> None) ->
      exists msg,
        generate_deprecation_warning_msg what old_name new_name class_name
        = Ok msg).
Proof.
  rewrite <- rejected_iff.
  destruct (String.eqb what "class" && is_not_None class_name) eqn:Hguard.
  - rewrite (generate_rejected _ _ _ _ Hguard). by split.
  - rewrite (generate_accepted _ _ _ _ Hguard). split; [by split | eauto].
Qed.

Lemma generate_raises_iff_class_with_class_name_witness :
  generate_deprecation_warning_msg "class" "problem" "Problem" (Some EmptyString)
  = Raise (ValueError "Incorrect use of function arguments.")
  /\ exists msg,
       generate_deprecation_warning_msg "method" "solve" "Solve" (Some "Problem")
       = Ok msg.
Proof.
  split.
  - apply (generate_raises_iff_class_with_class_name
             "class" "problem" "Problem" (Some EmptyString)).
    split; [reflexivity | discriminate].
  - apply (generate_raises_iff_class_with_class_name
             "method" "solve" "Solve" (Some "Problem")).
    intros [Hwhat _]. discriminate Hwhat.
Defined.

(** C2: for every input that validation does not reject the formatter
    returns exactly the message of the documented shape, with the clause
    [in class '...' ] present exactly when [class_name] is; a present
    [class_name] shows up in that very clause, and the call for the
    function [problem] replaced by [Problem] gives the documented text. *)
Theorem generate_returns_exact_message :
  (forall (what old_name new_name : string) (class_name : option string),
      ~ (what = "class" /\ class_name <> None) ->
      generate_deprecation_warning_msg what old_name new_name class_name
      = Ok ("The " +:+ what +:+ " named '" +:+ old_name +:+ "' "
            +:+ match class_name with
                | Some c => "in class '" +:+ c +:+ "' "
                | None => EmptyString
                end
            +:+ "will soon be deprecated in CyIpopt. Please replace all uses and use '"
            +:+ new_name +:+ "' going forward."))
  /\ (forall old_name new_name c : string,
         exists msg,
           generate_deprecation_warning_msg "method" old_name new_name (Some c)
           = Ok msg
           /\ contains ("in class '" +:+ c +:+ "' ") msg = true)
  /\ generate_deprecation_warning_msg "function" "problem" "Problem" None
     = Ok "The function named 'problem' will soon be deprecated in CyIpopt. Please replace all uses and use 'Problem' going forward.".
Proof.
  split; [| split].
  - intros what old_name new_name class_name Hok.
    apply generate_accepted, not_true_is_false.
    by rewrite rejected_iff.
  - intros old_name new_name c. eexists. split; [reflexivity |].
    change (contains ("in class '" +:+ c +:+ "' ")
              ("The method named '" +:+ old_name +:+ "' " +:+
               ("in class '" +:+ c +:+ "' ") +:+
               ("will soon be deprecated in CyIpopt. Please replace all uses and use '"
                +:+ new_name +:+ "' going forward.")) = true).
    do 3 apply contains_app_r. apply contains_prefix.
  - reflexivity.
Qed.

Lemma generate_returns_exact_message_witness :
  generate_deprecation_warning_msg "method" "solve" "Solve" (Some "Problem")
  = Ok "The method named 'solve' in class 'Problem' will soon be deprecated in CyIpopt. Please replace all uses and use 'Solve' going forward."
  /\ generate_deprecation_warning_msg "class" "problem" "Problem" None
     = Ok "The class named 'problem' will soon be deprecated in CyIpopt. Please replace all uses and use 'Problem' going forward.".
Proof.
  split.
  - apply (proj1 generate_returns_exact_message
             "method" "solve" "Solve" (Some "Problem")).
    intros [Hwhat _]. discriminate Hwhat.
  - apply (proj1 generate_returns_exact_message
             "class" "problem" "Problem" None).
    intros [_ Hcn]. by apply Hcn.
Defined.

(** C9: [what] is never validated: for every [what] other than ["class"]
    and every [class_name], present or not, the formatter returns the message
    with [what] put into it; a [class_name] given together with such a
    [what] is accepted. *)
Theorem generate_never_validates_what
    (what old_name new_name : string) (class_name : option string) :
  what <> "class" ->
  generate_deprecation_warning_msg what old_name new_name class_name
  = Ok ("The " +:+ what +:+ " named '" +:+ old_name +:+ "' "
        +:+ match class_name with
            | Some c => "in class '" +:+ c +:+ "' "
            | None => EmptyString
            end
        +:+ "will soon be deprecated in CyIpopt. Please replace all uses and use '"
        +:+ new_name +:+ "' going forward.").
Proof. apply generate_other_what. Qed.

Lemma generate_never_validates_what_witness :
  generate_deprecation_warning_msg "gadget" "solve" "Solve" (Some "Problem")
  = Ok "The gadget named 'solve' in class 'Problem' will soon be deprecated in CyIpopt. Please replace all uses and use 'Solve' going forward.".
Proof.
  apply (generate_never_validates_what "gadget" "solve" "Solve" (Some "Problem")).
  discriminate.
Defined.

(** The literal parts of the message between the quoted names. *)
Lemma generate_no_class_name_shape (what old_name new_name : string) :
  what <> "class" ->
  generate_deprecation_warning_msg what old_name new_name None
  = Ok (("The " +:+ what +:+ " named ")
        +:+ String "'" (old_name
        +:+ String "'" (" will soon be deprecated in CyIpopt. Please replace all uses and use "
        +:+ String "'" (new_name
        +:+ String "'" " going forward.")))).
Proof.
  intros Hwhat. rewrite generate_other_what by done.
  f_equal. by rewrite !append_assoc.
Qed.

(** C7, as the code has it: without a [class_name], and with [what] one of
    ["function"] and ["method"], the returned message contains [in class]
    exactly when [old_name] or [new_name] contains it; the fixed text of the
    message never does. *)
Theorem generate_in_class_only_from_names (what old_name new_name : string) :
  what = "function" \/ what = "method" ->
  exists msg,
    generate_deprecation_warning_msg what old_name new_name None = Ok msg
    /\ contains "in class" msg
       = contains "in class" old_name || contains "in class" new_name.
Proof.
  intros Hwhat. eexists. split.
  - apply generate_no_class_name_shape. by destruct Hwhat as [-> | ->].
  - rewrite !contains_app_sep by reflexivity.
    assert (contains "in class" ("The " +:+ what +:+ " named ") = false) as ->
      by (by destruct Hwhat as [-> | ->]).
    change (contains "in class" " will soon be deprecated in CyIpopt. Please replace all uses and use ")
      with false.
    change (contains "in class" " going forward.") with false.
    by rewrite !orb_false_l, orb_false_r.
Qed.

Lemma generate_in_class_only_from_names_witness :
  exists msg,
    generate_deprecation_warning_msg "function" "problem" "Problem" None = Ok msg
    /\ contains "in class" msg = false.
Proof.
  destruct (generate_in_class_only_from_names "function" "problem" "Problem")
    as [msg [Hmsg Hin]]; [by left |].
  exists msg. split; [exact Hmsg | exact Hin].
Defined.

(** C7, as stated, fails for a name that itself contains [in class]. *)
Lemma generate_in_class_counterexample :
  generate_deprecation_warning_msg "function" "in class" "Problem" None
  = Ok "The function named 'in class' will soon be deprecated in CyIpopt. Please replace all uses and use 'Problem' going forward."
  /\ contains "in class"
       "The function named 'in class' will soon be deprecated in CyIpopt. Please replace all uses and use 'Problem' going forward."
     = true.
Proof. split; reflexivity. Qed.

(** ** The decorator *)

Section DecoratorProperties.

Context {Ext : Type}.

Implicit Types (func : @callable Ext) (w : World Ext).

Lemma wrapper_id_fresh w (l : loc) (o : pyobject) :
  heap w !! l = Some o -> wrapper_id w <> l.
Proof.
  intros Hl Heq. apply (is_fresh (dom (heap w))).
  fold (wrapper_id w). rewrite Heq. apply elem_of_dom. by exists o.
Qed.

(** What [decorate] does to an object of the world. *)
Lemma decorate_run (new_name : string) func w (o : pyobject) :
  heap w !! c_id func = Some o ->
  decorate new_name func w
  = (match attr_name o with
     | Some old_name =>
         Ok (Callable (wrapper_id w) (wrapper func old_name new_name))
     | None => Raise (AttributeError "__name__")
     end,
     set_heap (<[wrapper_id w := wrapped_attrs (c_id func) o]> (heap w)) w).
Proof.
  intros Hfunc. pose proof (wrapper_id_fresh w _ _ Hfunc) as Hfresh.
  unfold decorate, bind, new_function, update_wrapper, getattr_name, ret,
    raise, lookup_attr.
  fold (wrapper_id w). cbn [heap set_heap warnings_log other].
  rewrite lookup_insert_eq, (lookup_insert_ne _ _ _ _ Hfresh), Hfunc.
  cbn [heap set_heap warnings_log other].
  rewrite insert_insert_eq, (lookup_insert_ne _ _ _ _ Hfresh), Hfunc.
  unfold wrapped_attrs. destruct o as [m n q d oc wr [|]]; cbn.
  - by destruct n, m, q, oc.
  - by destruct n, m, q.
Qed.

(** The two ways a call of [warnings.warn] can go. *)
Lemma warnings_warn_returns (msg : string) (c : category) w :
  filters w (Warning msg c) <> ActError ->
  warnings_warn msg c w = (Ok tt, emit (Warning msg c) w).
Proof. unfold warnings_warn, ret, raise. by destruct (filters w _). Qed.

Lemma warnings_warn_raises (msg : string) (c : category) w :
  filters w (Warning msg c) = ActError ->
  warnings_warn msg c w
  = (Raise (WarningRaised (Warning msg c)), emit (Warning msg c) w).
Proof. unfold warnings_warn, ret, raise. by intros ->. Qed.

Lemma warn_then_returns {A : Type} (msg : string) (c : category)
    (k : M Ext A) w :
  filters w (Warning msg c) <> ActError ->
  (warnings_warn msg c ;;; k) w = k (emit (Warning msg c) w).
Proof. intros Hok. unfold bind. by rewrite warnings_warn_returns. Qed.

Lemma warn_then_raises {A : Type} (msg : string) (c : category)
    (k : M Ext A) w :
  filters w (Warning msg c) = ActError ->
  (warnings_warn msg c ;;; k) w
  = (Raise (WarningRaised (Warning msg c)), emit (Warning msg c) w).
Proof. intros Herr. unfold bind. by rewrite warnings_warn_raises. Qed.

(** Whatever the filters, a call of [warnings.warn] followed by a
    computation that emits no warning adds one warning. *)
Lemma warn_then_log {A : Type} (msg : string) (c : category) (k : M Ext A) w :
  (forall x, warnings_log (snd (k x)) = warnings_log x) ->
  warnings_log (snd ((warnings_warn msg c ;;; k) w))
  = warnings_log w ++ [Warning msg c].
Proof.
  intros Hquiet.
  destruct (decide (filters w (Warning msg c) = ActError)) as [Herr | Hok].
  - by rewrite warn_then_raises.
  - by rewrite warn_then_returns, Hquiet.
Qed.

(** What a call of [wrapper] does: the formatter accepts the descriptor
    built from the wrapped callable as it is at the call, the message is
    handed to [warnings.warn], and after that the wrapped callable runs with
    the arguments of the call. *)
Lemma wrapper_run func (old_name new_name : string)
    (args : list value) (kwargs : list (string * value)) w :
  exists msg,
    match lookup_attr attr_objclass (c_id func) w with
    | Some cls =>
        generate_deprecation_warning_msg "method" old_name new_name
          (Some (cls_name (classes w cls)))
    | None =>
        generate_deprecation_warning_msg "function" old_name new_name None
    end = Ok msg
    /\ wrapper func old_name new_name args kwargs w
       = (warnings_warn msg FutureWarning ;;; c_call func args kwargs) w.
Proof.
  unfold wrapper, bind, hasattr_objclass, getattr_objclass, class_name_of,
    pure_call, ret, raise.
  destruct (lookup_attr attr_objclass (c_id func) w) as [cls|] eqn:Hcls;
    cbn [is_not_None]; cbv beta iota; rewrite ?Hcls; cbv beta iota;
    rewrite generate_other_what by discriminate; eauto.
Qed.

Lemma wrapper_msg_run func (old_name new_name : string)
    (args : list value) (kwargs : list (string * value)) w :
  exists msg,
    wrapper_msg func old_name new_name w = Ok msg
    /\ wrapper func old_name new_name args kwargs w
       = (warnings_warn msg FutureWarning ;;; c_call func args kwargs) w.
Proof. apply wrapper_run. Qed.

(** The message of a call depends on the state only through the name of the
    owning class, if there is one. *)
Lemma wrapper_msg_owner func (old_name new_name : string) w w' :
  owner_name func w' = owner_name func w ->
  wrapper_msg func old_name new_name w' = wrapper_msg func old_name new_name w.
Proof.
  unfold owner_name, wrapper_msg.
  destruct (lookup_attr attr_objclass (c_id func) w'),
    (lookup_attr attr_objclass (c_id func) w); cbn; congruence.
Qed.

Lemma deprecated_warning_run (new_name : string) func w (o : pyobject)
    (old_name : string) :
  heap w !! c_id func = Some o ->
  attr_name o = Some old_name ->
  deprecated_warning new_name func w
  = (Ok (Callable (wrapper_id w) (wrapper func old_name new_name)),
     set_heap (<[wrapper_id w := wrapped_attrs (c_id func) o]> (heap w)) w).
Proof.
  intros Hfunc Hname. unfold deprecated_warning.
  by rewrite (decorate_run _ _ _ _ Hfunc), Hname.
Qed.

(** C4, as the code has it: the wrapper that
    [deprecated_warning(new_name)(f)] returns, called with any arguments
    while the warning filters do not turn its [FutureWarning] into an error,
    behaves as [f] called with the same positional and keyword arguments
    once that warning has been emitted: it returns what [f] returns, raises
    what [f] raises, and leaves the state as [f] leaves it.  Under filters
    that turn the warning into an error the call raises the warning and [f]
    is not called. *)
Theorem wrapper_forwards_and_returns (new_name : string) func w0
    (o : pyobject) (old_name : string) :
  heap w0 !! c_id func = Some o ->
  attr_name o = Some old_name ->
  exists c w1,
    deprecated_warning new_name func w0 = (Ok c, w1)
    /\ forall (args : list value) (kwargs : list (string * value)) w,
        exists msg,
          wrapper_msg func old_name new_name w = Ok msg
          /\ (filters w (Warning msg FutureWarning) <> ActError ->
              c_call c args kwargs w
              = c_call func args kwargs (emit (Warning msg FutureWarning) w))
          /\ (filters w (Warning msg FutureWarning) = ActError ->
              c_call c args kwargs w
              = (Raise (WarningRaised (Warning msg FutureWarning)),
                 emit (Warning msg FutureWarning) w)).
Proof.
  intros Hfunc Hname. eexists _, _. split.
  - by apply deprecated_warning_run.
  - intros args kwargs w. cbn [c_call].
    destruct (wrapper_msg_run func old_name new_name args kwargs w)
      as (msg & Hmsg & Hrun).
    exists msg. split; [exact Hmsg |]. rewrite Hrun. split.
    + apply warn_then_returns.
    + apply warn_then_raises.
Qed.

(** C5: [old_name] is the [__name__] that the wrapped callable has when it
    is decorated, whatever its name is when the wrapper is called; function
    or method is decided at every call, from the state of that call: with an
    [__objclass__] the message given to [warnings.warn] is the formatter's
    for [what = "method"] and the [__name__] that the class has at that call
    as [class_name], without one the formatter's for [what = "function"] and
    no [class_name]. *)
Theorem wrapper_name_at_decoration_kind_at_call (new_name : string) func w0
    (o : pyobject) (old_name : string) :
  heap w0 !! c_id func = Some o ->
  attr_name o = Some old_name ->
  exists c w1,
    deprecated_warning new_name func w0 = (Ok c, w1)
    /\ forall (args : list value) (kwargs : list (string * value)) w,
        exists msg,
          match lookup_attr attr_objclass (c_id func) w with
          | Some cls =>
              generate_deprecation_warning_msg "method" old_name new_name
                (Some (cls_name (classes w cls)))
          | None =>
              generate_deprecation_warning_msg "function" old_name new_name
                None
          end = Ok msg
          /\ c_call c args kwargs w
             = (warnings_warn msg FutureWarning ;;; c_call func args kwargs) w.
Proof.
  intros Hfunc Hname. eexists _, _. split.
  - by apply deprecated_warning_run.
  - intros args kwargs w. cbn [c_call]. apply wrapper_run.
Qed.

(** C6, as the code has it: every call of the wrapper hands exactly one
    [FutureWarning] to [warnings.warn] and, unless the filters turn it into
    an error, then delegates; the text is the formatter's for the wrapped
    callable as it is at that call, so two calls warn with the same text
    when the wrapped callable has no [__objclass__] at either call or one
    whose class has the same [__name__] at both, and two calls in a row of a
    callable that emits no warning of its own add exactly these two
    warnings. *)
Theorem wrapper_warns_once_per_call (new_name : string) func w0
    (o : pyobject) (old_name : string) :
  heap w0 !! c_id func = Some o ->
  attr_name o = Some old_name ->
  exists c w1,
    deprecated_warning new_name func w0 = (Ok c, w1)
    /\ forall (args1 args2 : list value)
          (kwargs1 kwargs2 : list (string * value)) w w',
        exists msg1 msg2,
          wrapper_msg func old_name new_name w = Ok msg1
          /\ wrapper_msg func old_name new_name w' = Ok msg2
          /\ c_call c args1 kwargs1 w
             = (warnings_warn msg1 FutureWarning ;;; c_call func args1 kwargs1) w
          /\ c_call c args2 kwargs2 w'
             = (warnings_warn msg2 FutureWarning ;;; c_call func args2 kwargs2) w'
          /\ (owner_name func w' = owner_name func w -> msg2 = msg1)
          /\ ((forall a k x,
                  warnings_log (snd (c_call func a k x)) = warnings_log x) ->
              w' = snd (c_call c args1 kwargs1 w) ->
              warnings_log (snd (c_call c args2 kwargs2 w'))
              = (warnings_log w
                 ++ [Warning msg1 FutureWarning; Warning msg2 FutureWarning])%list).
Proof.
  intros Hfunc Hname. eexists _, _. split.
  - by apply deprecated_warning_run.
  - intros args1 args2 kwargs1 kwargs2 w w'. cbn [c_call].
    destruct (wrapper_msg_run func old_name new_name args1 kwargs1 w)
      as (msg1 & Hmsg1 & Hrun1).
    destruct (wrapper_msg_run func old_name new_name args2 kwargs2 w')
      as (msg2 & Hmsg2 & Hrun2).
    exists msg1, msg2. repeat split; try done.
    + intros Hsame.
      rewrite (wrapper_msg_owner _ _ _ _ _ Hsame) in Hmsg2. congruence.
    + intros Hquiet ->.
      rewrite Hrun2, (warn_then_log _ _ _ _ (Hquiet _ _)).
      rewrite Hrun1, (warn_then_log _ _ _ _ (Hquiet _ _)).
      by rewrite <- app_assoc.
Qed.

(** C10: decorating a callable that has a [__name__] returns a wrapper, a
    new object, whose [__name__] and [__doc__] are those of the callable, as
    are its [__module__] and [__qualname__] when the callable has them;
    [__wrapped__] refers to the callable, and nothing else in the state
    changes.  A callable without a [__name__] cannot be decorated. *)
Theorem decorate_preserves_metadata (new_name : string) func w0
    (o : pyobject) :
  heap w0 !! c_id func = Some o ->
  (attr_name o = None ->
   exists w1,
     deprecated_warning new_name func w0
     = (Raise (AttributeError "__name__"), w1))
  /\ (forall old_name : string,
         attr_name o = Some old_name ->
         exists c w1,
           deprecated_warning new_name func w0 = (Ok c, w1)
           /\ lookup_attr attr_name (c_id c) w1 = Some old_name
           /\ lookup_attr attr_doc (c_id c) w1 = attr_doc o
           /\ (forall m, attr_module o = Some m ->
                         lookup_attr attr_module (c_id c) w1 = Some m)
           /\ (forall q, attr_qualname o = Some q ->
                         lookup_attr attr_qualname (c_id c) w1 = Some q)
           /\ lookup_attr attr_wrapped (c_id c) w1 = Some (c_id func)
           /\ heap w0 !! c_id c = None
           /\ (forall l : loc, l <> c_id c -> heap w1 !! l = heap w0 !! l)
           /\ warnings_log w1 = warnings_log w0
           /\ other w1 = other w0).
Proof.
  intros Hfunc. split.
  - intros Hname. eexists. unfold deprecated_warning.
    by rewrite (decorate_run _ _ _ _ Hfunc), Hname.
  - intros old_name Hname. eexists _, _. split.
    { by apply (deprecated_warning_run _ _ _ _ _ Hfunc Hname). }
    unfold lookup_attr. cbn [c_id heap set_heap warnings_log other].
    rewrite lookup_insert_eq.
    change (Some (wrapped_attrs (c_id func) o) ≫= ?get)
      with (get (wrapped_attrs (c_id func) o)).
    cbn [wrapped_attrs attr_name attr_doc attr_module attr_qualname
           attr_wrapped].
    repeat split.
    + by rewrite Hname.
    + by intros m ->.
    + by intros q ->.
    + apply not_elem_of_dom, (is_fresh (dom (heap w0))).
    + intros l Hl. by rewrite lookup_insert_ne.
Qed.

End DecoratorProperties.

(** ** The substitute class *)

Section ProblemProperties.

Context {Ext : Type}.

Variable Problem_init : list value -> list (string * value) -> M Ext loc.

(** What a call of the class [problem] does when no keyword is named
    [self]. *)
Lemma problem_run (args : list value) (kwargs : list (string * value))
    (w : World Ext) :
  has_keyword "self" kwargs = false ->
  problem Problem_init args kwargs w
  = (warnings_warn
       "The class named 'problem' will soon be deprecated in CyIpopt. Please replace all uses and use 'Problem' going forward."
       FutureWarning ;;;
     Problem Problem_init args kwargs) w.
Proof.
  intros Hself. unfold problem, problem_new. rewrite Hself.
  change (generate_deprecation_warning_msg "class" "problem" "Problem" None)
    with (@Ok string "The class named 'problem' will soon be deprecated in CyIpopt. Please replace all uses and use 'Problem' going forward.").
  unfold pure_call, object_init, Problem, bind, ret.
  destruct (warnings_warn _ _ w) as [[[] | e] w1]; [| reflexivity].
  destruct (Problem_init args kwargs w1) as [[l | e] w2]; reflexivity.
Qed.

(** C3, as the code has it: a call of the class [problem], with any
    positional arguments and any keyword arguments none of which is named
    [self], gives the one [FutureWarning] with the formatter's message for
    the class [problem] replaced by [Problem] to [warnings.warn] and, unless
    the warning filters turn that warning into an error, is then the call of
    [Problem] with the same positional and keyword arguments: same result or
    error and same final state; a returned value is an instance of [Problem]
    and not of [problem].  Under filters that turn the warning into an error
    the call raises the warning and [Problem] is not called. *)
Theorem problem_warns_then_constructs
    (args : list value) (kwargs : list (string * value)) (w : World Ext) :
  has_keyword "self" kwargs = false ->
  generate_deprecation_warning_msg "class" "problem" "Problem" None
  = Ok "The class named 'problem' will soon be deprecated in CyIpopt. Please replace all uses and use 'Problem' going forward."
  /\ (filters w
        (Warning "The class named 'problem' will soon be deprecated in CyIpopt. Please replace all uses and use 'Problem' going forward."
           FutureWarning) <> ActError ->
      problem Problem_init args kwargs w
      = Problem Problem_init args kwargs
          (emit (Warning "The class named 'problem' will soon be deprecated in CyIpopt. Please replace all uses and use 'Problem' going forward."
                   FutureWarning) w))
  /\ (filters w
        (Warning "The class named 'problem' will soon be deprecated in CyIpopt. Please replace all uses and use 'Problem' going forward."
           FutureWarning) = ActError ->
      problem Problem_init args kwargs w
      = (Raise
           (WarningRaised
              (Warning "The class named 'problem' will soon be deprecated in CyIpopt. Please replace all uses and use 'Problem' going forward."
                 FutureWarning)),
         emit (Warning "The class named 'problem' will soon be deprecated in CyIpopt. Please replace all uses and use 'Problem' going forward."
                 FutureWarning) w))
  /\ forall (v : value) (w' : World Ext),
       problem Problem_init args kwargs w = (Ok v, w') ->
       isinstance v cls_Problem = true /\ isinstance v cls_problem = false.
Proof.
  intros Hself. split; [reflexivity |].
  rewrite (problem_run _ _ _ Hself). split; [| split].
  - apply warn_then_returns.
  - apply warn_then_raises.
  - intros v w'. unfold bind, Problem, ret.
    destruct (warnings_warn _ _ w) as [[[] | e] w1]; [| discriminate].
    unfold bind.
    destruct (Problem_init args kwargs w1) as [[l | e] w2]; [| discriminate].
    by intros [= <- _].
Qed.

End ProblemProperties.

(** ** The client module *)

(** Decorating [old] and calling the result with [5] returns [old(5)] and
    warns once. *)
Example decorated_old_add_5 :
  let run :=
    (c <- deprecated_warning "new" old_add ;; c_call c [VInt 5] [])
      client_world in
  fst run = Ok (VInt 7)
  /\ heap (snd run)
     = <[2%positive :=
           PyObject (Some "client") (Some "old") (Some "old")
             (Some "Adds two numbers.") None (Some 1%positive) true]>
         {[1%positive := old_function]}
  /\ warnings_log (snd run) = [Warning "The function named 'old' will soon be deprecated in CyIpopt. Please replace all uses and use 'new' going forward." FutureWarning]
  /\ c_call old_add [VInt 5] [] client_world = (Ok (VInt 7), client_world).
Proof. repeat split; vm_compute; reflexivity. Qed.

Lemma wrapper_forwards_and_returns_witness :
  exists c w1,
    deprecated_warning "new" old_add client_world = (Ok c, w1)
    /\ c_call c [VInt 5] [] client_world
       = c_call old_add [VInt 5] []
           (emit (Warning "The function named 'old' will soon be deprecated in CyIpopt. Please replace all uses and use 'new' going forward." FutureWarning) client_world)
    /\ c_call c [VInt 5] [] strict_world
       = (Raise (WarningRaised (Warning "The function named 'old' will soon be deprecated in CyIpopt. Please replace all uses and use 'new' going forward." FutureWarning)),
          emit (Warning "The function named 'old' will soon be deprecated in CyIpopt. Please replace all uses and use 'new' going forward." FutureWarning) strict_world).
Proof.
  destruct (wrapper_forwards_and_returns "new" old_add client_world
              old_function "old" eq_refl eq_refl) as (c & w1 & Hdec & Hcall).
  exists c, w1. split; [exact Hdec |]. split.
  - destruct (Hcall [VInt 5] [] client_world) as (msg & Hmsg & Hok & _).
    vm_compute in Hmsg. injection Hmsg as <-.
    apply Hok. intros Herr. vm_compute in Herr. discriminate Herr.
  - destruct (Hcall [VInt 5] [] strict_world) as (msg & Hmsg & _ & Herr).
    vm_compute in Hmsg. injection Hmsg as <-.
    apply Herr. reflexivity.
Defined.

(** C4, as stated, fails for a caller whose filters turn warnings into
    errors: the call of the decorated [old] raises the warning, where
    [old(5)] itself returns [7]. *)
Lemma wrapper_error_filter_counterexample :
  fst ((c <- deprecated_warning "new" old_add ;; c_call c [VInt 5] [])
         strict_world)
  = Raise (WarningRaised (Warning "The function named 'old' will soon be deprecated in CyIpopt. Please replace all uses and use 'new' going forward." FutureWarning))
  /\ fst (c_call old_add [VInt 5] [] strict_world) = Ok (VInt 7).
Proof. split; vm_compute; reflexivity. Qed.

Lemma wrapper_name_at_decoration_kind_at_call_witness :
  (exists c w1,
      deprecated_warning "new" old_add client_world = (Ok c, w1)
      /\ lookup_attr attr_name (c_id old_add) renamed_world = Some "renamed"
      /\ c_call c [VInt 5] [] renamed_world
         = (warnings_warn "The function named 'old' will soon be deprecated in CyIpopt. Please replace all uses and use 'new' going forward." FutureWarning ;;; c_call old_add [VInt 5] [])
             renamed_world)
  /\ (exists c w1,
         deprecated_warning "Solve" solve_method method_world = (Ok c, w1)
         /\ c_call c [] [] method_world
            = (warnings_warn
                 "The method named 'solve' in class 'Problem' will soon be deprecated in CyIpopt. Please replace all uses and use 'Solve' going forward."
                 FutureWarning ;;;
               c_call solve_method [] []) method_world).
Proof.
  split.
  - destruct (wrapper_name_at_decoration_kind_at_call "new" old_add
                client_world old_function "old" eq_refl eq_refl)
      as (c & w1 & Hdec & Hcall).
    exists c, w1. split; [exact Hdec |]. split; [reflexivity |].
    destruct (Hcall [VInt 5] [] renamed_world) as (msg & Hmsg & Hrun).
    vm_compute in Hmsg. injection Hmsg as <-. exact Hrun.
  - destruct (wrapper_name_at_decoration_kind_at_call "Solve" solve_method
                method_world solve_descriptor "solve" eq_refl eq_refl)
      as (c & w1 & Hdec & Hcall).
    exists c, w1. split; [exact Hdec |].
    destruct (Hcall [] [] method_world) as (msg & Hmsg & Hrun).
    vm_compute in Hmsg. injection Hmsg as <-. exact Hrun.
Defined.

Lemma old_add_quiet (a : list value) (k : list (string * value))
    (x : World unit) :
  warnings_log (snd (c_call old_add a k x)) = warnings_log x.
Proof. unfold old_add. cbn [c_call]. by repeat case_match. Qed.

Lemma wrapper_warns_once_per_call_witness :
  exists c w1,
    deprecated_warning "new" old_add client_world = (Ok c, w1)
    /\ exists msg,
        wrapper_msg old_add "old" "new" client_world = Ok msg
        /\ warnings_log
             (snd (c_call c [VInt 5] []
                     (snd (c_call c [VInt 5] [] client_world))))
           = [Warning msg FutureWarning; Warning msg FutureWarning].
Proof.
  destruct (wrapper_warns_once_per_call "new" old_add client_world
              old_function "old" eq_refl eq_refl) as (c & w1 & Hdec & Hcalls).
  exists c, w1. split; [exact Hdec |].
  destruct (Hcalls [VInt 5] [VInt 5] [] [] client_world
              (snd (c_call c [VInt 5] [] client_world)))
    as (msg1 & msg2 & Hmsg1 & _ & Hrun1 & _ & Hsame & Hlog).
  exists msg1. split; [exact Hmsg1 |].
  rewrite (Hlog old_add_quiet eq_refl).
  rewrite Hsame; [reflexivity |].
  rewrite Hrun1. reflexivity.
Defined.

(** C6, as stated, fails: a wrapped callable that binds itself to a class
    when it runs is announced as a function by the first call and as a
    method by the second; a wrapped method whose class is renamed between
    two calls is announced under two class names; and for a caller whose
    filters turn warnings into errors the warning is fatal to the call,
    which raises it. *)
Lemma wrapper_twice_counterexample :
  warnings_log
    (snd (decorate_and_call_twice "new" old_self_binding client_world))
  = [Warning "The function named 'old' will soon be deprecated in CyIpopt. Please replace all uses and use 'new' going forward." FutureWarning;
     Warning "The method named 'old' in class 'Problem' will soon be deprecated in CyIpopt. Please replace all uses and use 'new' going forward."
       FutureWarning]
  /\ warnings_log
       (snd (decorate_and_call_twice "Solve" solve_renaming_class method_world))
     = [Warning "The method named 'solve' in class 'Problem' will soon be deprecated in CyIpopt. Please replace all uses and use 'Solve' going forward."
          FutureWarning;
        Warning "The method named 'solve' in class 'Solver' will soon be deprecated in CyIpopt. Please replace all uses and use 'Solve' going forward."
          FutureWarning]
  /\ fst ((c <- deprecated_warning "new" old_add ;; c_call c [VInt 5] [])
            strict_world)
     = Raise (WarningRaised (Warning "The function named 'old' will soon be deprecated in CyIpopt. Please replace all uses and use 'new' going forward." FutureWarning)).
Proof. repeat split; vm_compute; reflexivity. Qed.

Lemma decorate_preserves_metadata_witness :
  exists c w1,
    deprecated_warning "new" old_add client_world = (Ok c, w1)
    /\ lookup_attr attr_name (c_id c) w1 = Some "old"
    /\ lookup_attr attr_doc (c_id c) w1 = Some "Adds two numbers.".
Proof.
  destruct (decorate_preserves_metadata "new" old_add client_world
              old_function eq_refl) as [_ Hnamed].
  destruct (Hnamed "old" eq_refl) as (c & w1 & Hdec & Hname & Hdoc & _).
  exists c, w1. repeat split; [exact Hdec | exact Hname | exact Hdoc].
Defined.

Lemma problem_warns_then_constructs_witness :
  problem accept_all [] [("x", VInt 1); ("y", VInt 2)] client_world
  = Problem accept_all [] [("x", VInt 1); ("y", VInt 2)]
      (emit (Warning "The class named 'problem' will soon be deprecated in CyIpopt. Please replace all uses and use 'Problem' going forward." FutureWarning) client_world)
  /\ problem accept_all [] [("x", VInt 1); ("y", VInt 2)] strict_world
     = (Raise (WarningRaised (Warning "The class named 'problem' will soon be deprecated in CyIpopt. Please replace all uses and use 'Problem' going forward." FutureWarning)),
        emit (Warning "The class named 'problem' will soon be deprecated in CyIpopt. Please replace all uses and use 'Problem' going forward." FutureWarning) strict_world).
Proof.
  split.
  - destruct (problem_warns_then_constructs accept_all
                [] [("x", VInt 1); ("y", VInt 2)] client_world eq_refl)
      as (_ & Hok & _).
    apply Hok. intros Herr. vm_compute in Herr. discriminate Herr.
  - destruct (problem_warns_then_constructs accept_all
                [] [("x", VInt 1); ("y", VInt 2)] strict_world eq_refl)
      as (_ & _ & Herr & _).
    apply Herr. reflexivity.
Defined.

(** C3, as stated, fails for a keyword argument named [self]: the call of
    [problem] raises before it warns, where the call of [Problem] with the
    same arguments returns an instance; and it fails for a caller whose
    filters turn warnings into errors: the call of [problem] raises the
    warning, where [Problem] with the same arguments returns an instance. *)
Lemma problem_self_keyword_counterexample :
  problem accept_all [] [("self", VInt 1)] client_world
  = (Raise TypeError, client_world)
  /\ Problem accept_all [] [("self", VInt 1)]
       (emit (Warning "The class named 'problem' will soon be deprecated in CyIpopt. Please replace all uses and use 'Problem' going forward." FutureWarning) client_world)
     = (Ok (VInstance cls_Problem 7%positive),
        emit (Warning "The class named 'problem' will soon be deprecated in CyIpopt. Please replace all uses and use 'Problem' going forward." FutureWarning) client_world)
  /\ fst (problem accept_all [VInt 1] [] strict_world)
     = Raise (WarningRaised (Warning "The class named 'problem' will soon be deprecated in CyIpopt. Please replace all uses and use 'Problem' going forward." FutureWarning))
  /\ fst (Problem accept_all [VInt 1] [] strict_world)
     = Ok (VInstance cls_Problem 7%positive).
Proof. repeat split; reflexivity. Qed.

(** * Further properties *)

(** ** The message identifies what is deprecated *)

Lemma has_char_app (c : ascii) (a b : string) :
  has_char c (a +:+ b) = has_char c a || has_char c b.
Proof.
  induction a as [|x a IH]; [done |].
  change (String x a +:+ b) with (String x (a +:+ b)).
  cbn [has_char]. by rewrite IH, orb_assoc.
Qed.

(** Two texts cut at their first occurrence of [c] agree piece by piece. *)
Lemma app_sep_inj (c : ascii) (a a' b b' : string) :
  has_char c a = false ->
  has_char c a' = false ->
  a +:+ String c b = a' +:+ String c b' ->
  a = a' /\ b = b'.
Proof.
  revert a'. induction a as [|x a IH]; intros [|x' a'] Ha Ha' Heq.
  - by injection Heq as ->.
  - injection Heq as -> _. cbn [has_char] in Ha'.
    by rewrite Ascii.eqb_refl in Ha'.
  - injection Heq as -> _. cbn [has_char] in Ha.
    by rewrite Ascii.eqb_refl in Ha.
  - injection Heq as -> Heq. cbn [has_char] in Ha, Ha'.
    apply orb_false_iff in Ha as [_ Ha]. apply orb_false_iff in Ha' as [_ Ha'].
    destruct (IH a' Ha Ha' Heq) as [-> ->]. done.
Qed.

Lemma length_app (a b : string) :
  String.length (a +:+ b) = String.length a + String.length b.
Proof.
  induction a as [|x a IH]; [done |].
  change (String x a +:+ b) with (String x (a +:+ b)).
  cbn [String.length]. by rewrite IH.
Qed.

Lemma app_inj_r (a b c : string) : a +:+ c = b +:+ c -> a = b.
Proof.
  revert b. induction a as [|x a IH]; intros [|y b] Heq.
  - done.
  - apply (f_equal String.length) in Heq.
    rewrite !length_app in Heq. cbn [String.length] in Heq. lia.
  - apply (f_equal String.length) in Heq.
    rewrite !length_app in Heq. cbn [String.length] in Heq. lia.
  - injection Heq as -> Heq. by rewrite (IH b Heq).
Qed.

(** The message of an accepted call, cut at its quotes. *)
Lemma generate_accepted_shape (what old_name new_name : string)
    (class_name : option string) (msg : string) :
  generate_deprecation_warning_msg what old_name new_name class_name = Ok msg ->
  msg
  = ("The " +:+ what +:+ " named ")
    +:+ String "'" (old_name
    +:+ String "'"
          (match class_name with
           | Some c => fun rest => " in class " +:+ String "'" (c +:+ String "'" rest)
           | None => fun rest => rest
           end
             (" will soon be deprecated in CyIpopt. Please replace all uses and use "
              +:+ String "'" (new_name +:+ String "'" " going forward.")))).
Proof.
  destruct (String.eqb what "class" && is_not_None class_name) eqn:Hguard.
  - by rewrite (generate_rejected _ _ _ _ Hguard).
  - rewrite (generate_accepted _ _ _ _ Hguard). intros [= <-].
    destruct class_name as [c|]; by rewrite !append_assoc.
Qed.

(** X1: when none of [what], [old_name], [new_name] and [class_name]
    contains a quote, the returned message determines all four: two accepted
    calls with the same message were made with the same arguments. *)
Theorem generate_injective_without_quotes
    (what1 old_name1 new_name1 what2 old_name2 new_name2 : string)
    (class_name1 class_name2 : option string) (msg : string) :
  has_char "'" what1 = false -> has_char "'" old_name1 = false ->
  has_char "'" new_name1 = false ->
  (forall c, class_name1 = Some c -> has_char "'" c = false) ->
  has_char "'" what2 = false -> has_char "'" old_name2 = false ->
  has_char "'" new_name2 = false ->
  (forall c, class_name2 = Some c -> has_char "'" c = false) ->
  generate_deprecation_warning_msg what1 old_name1 new_name1 class_name1
  = Ok msg ->
  generate_deprecation_warning_msg what2 old_name2 new_name2 class_name2
  = Ok msg ->
  what1 = what2 /\ old_name1 = old_name2 /\ new_name1 = new_name2
  /\ class_name1 = class_name2.
Proof.
  intros Hw1 Ho1 Hn1 Hc1 Hw2 Ho2 Hn2 Hc2 Hmsg1 Hmsg2.
  apply generate_accepted_shape in Hmsg1, Hmsg2. rewrite Hmsg1 in Hmsg2.
  apply app_sep_inj in Hmsg2 as [Hwhat Hrest];
    [| by rewrite !has_char_app, ?Hw1, ?Hw2 ..].
  change ("The " +:+ what1 +:+ " named ")
    with (String "T" (String "h" (String "e" (String " " (what1 +:+ " named ")))))
    in Hwhat.
  change ("The " +:+ what2 +:+ " named ")
    with (String "T" (String "h" (String "e" (String " " (what2 +:+ " named ")))))
    in Hwhat.
  injection Hwhat as Hwhat. apply app_inj_r in Hwhat as ->.
  apply app_sep_inj in Hrest as [-> Hrest]; [| done ..].
  destruct class_name1 as [c1|], class_name2 as [c2|].
  - apply app_sep_inj in Hrest as [_ Hrest]; [| done ..].
    apply app_sep_inj in Hrest as [-> Hrest]; [| by eauto ..].
    apply app_sep_inj in Hrest as [_ Hrest]; [| done ..].
    by apply app_sep_inj in Hrest as [-> _].
  - by apply app_sep_inj in Hrest as [? _].
  - by apply app_sep_inj in Hrest as [? _].
  - apply app_sep_inj in Hrest as [_ Hrest]; [| done ..].
    by apply app_sep_inj in Hrest as [-> _].
Qed.

Lemma generate_injective_without_quotes_witness :
  "method" = "method" /\ "solve" = "solve" /\ "Solve" = "Solve"
  /\ Some "Problem" = Some "Problem".
Proof.
  apply (generate_injective_without_quotes
           "method" "solve" "Solve" "method" "solve" "Solve"
           (Some "Problem") (Some "Problem")
           "The method named 'solve' in class 'Problem' will soon be deprecated in CyIpopt. Please replace all uses and use 'Solve' going forward.");
    try reflexivity; by intros c [= <-].
Defined.

(** With a quote in a name the message is ambiguous: a function whose name
    spells out the clause reads like a method of a class. *)
Example generate_ambiguous_with_quotes :
  generate_deprecation_warning_msg "method" "solve' in class 'Problem" "Solve"
    None
  = generate_deprecation_warning_msg "method" "solve" "Solve" (Some "Problem").
Proof. reflexivity. Qed.

(** ** Repeated and combined uses of the decorator *)

Section DecoratorUses.

Context {Ext : Type}.

Implicit Types (func : @callable Ext) (w : World Ext).

(** Emitting a warning changes no object and no class, so not the message
    of a later call either. *)
Lemma wrapper_msg_emit func (old_name new_name : string) (x : warning) w :
  wrapper_msg func old_name new_name (emit x w)
  = wrapper_msg func old_name new_name w.
Proof. reflexivity. Qed.

(** A call of [warnings.warn] changes the state only by the warning it is
    given. *)
Lemma warnings_warn_state (msg : string) (c : category) w :
  snd (warnings_warn msg c w) = emit (Warning msg c) w.
Proof. unfold warnings_warn, ret, raise. by destruct (filters w _). Qed.

Lemma warn_then_owner func (msg : string) (c : category)
    (k : M Ext value) w :
  (forall x, owner_name func (snd (k x)) = owner_name func x) ->
  owner_name func (snd ((warnings_warn msg c ;;; k) w)) = owner_name func w.
Proof.
  intros Hkeeps.
  destruct (decide (filters w (Warning msg c) = ActError)) as [Herr | Hok].
  - by rewrite warn_then_raises.
  - by rewrite warn_then_returns, Hkeeps.
Qed.

Lemma wrapper_calls_log func (old_name new_name : string)
    (args : list value) (kwargs : list (string * value)) :
  (forall a k x, warnings_log (snd (c_call func a k x)) = warnings_log x) ->
  (forall a k x, owner_name func (snd (c_call func a k x)) = owner_name func x) ->
  forall (c : callable) (n : nat) w (msg : string),
    c_call c = wrapper func old_name new_name ->
    wrapper_msg func old_name new_name w = Ok msg ->
    warnings_log (calls c args kwargs n w)
    = warnings_log w ++ replicate n (Warning msg FutureWarning).
Proof.
  intros Hquiet Hkeeps c n. induction n as [|n IH]; intros w msg Hc Hmsg.
  - cbn [calls replicate]. by rewrite app_nil_r.
  - cbn [calls].
    assert (c_call c args kwargs w
            = (warnings_warn msg FutureWarning ;;; c_call func args kwargs) w)
      as ->.
    { destruct (wrapper_msg_run func old_name new_name args kwargs w)
        as (msg' & Hmsg' & Hrun).
      assert (msg' = msg) as -> by congruence.
      by rewrite Hc. }
    rewrite (IH _ msg Hc).
    + rewrite (warn_then_log _ _ _ _ (Hquiet _ _)).
      cbn [replicate]. by rewrite <- app_assoc.
    + rewrite <- Hmsg. apply wrapper_msg_owner.
      apply warn_then_owner. intros x. apply Hkeeps.
Qed.

(** X2: for a wrapped callable that emits no warning of its own and changes
    neither its own [__objclass__] nor the [__name__] of that class, [n]
    calls of the wrapper in a row, whatever each returns or raises and
    whatever the warning filters do, hand exactly [n] warnings to
    [warnings.warn], all [FutureWarning] with the text of the first. *)
Theorem wrapper_warns_n_times (new_name : string) func w0
    (o : pyobject) (old_name : string) :
  heap w0 !! c_id func = Some o ->
  attr_name o = Some old_name ->
  (forall a k x, warnings_log (snd (c_call func a k x)) = warnings_log x) ->
  (forall a k x, owner_name func (snd (c_call func a k x)) = owner_name func x) ->
  exists c w1,
    deprecated_warning new_name func w0 = (Ok c, w1)
    /\ forall (args : list value) (kwargs : list (string * value))
         (n : nat) w,
        exists msg,
          wrapper_msg func old_name new_name w = Ok msg
          /\ warnings_log (calls c args kwargs n w)
             = warnings_log w ++ replicate n (Warning msg FutureWarning).
Proof.
  intros Hfunc Hname Hquiet Hkeeps. eexists _, _. split.
  - by apply deprecated_warning_run.
  - intros args kwargs n w.
    destruct (wrapper_msg_run func old_name new_name args kwargs w)
      as (msg & Hmsg & _).
    exists msg. split; [exact Hmsg |].
    by apply (wrapper_calls_log func old_name new_name).
Qed.

(** X3: two decorators stacked on a callable with a [__name__] give a
    wrapper that still carries that [__name__]; a call of it hands the
    warning for the outer replacement to [warnings.warn], then the warning
    for the inner one, both under the name of the callable itself, and then
    calls the callable with the same arguments, each step only if the one
    before did not raise: with filters that let both warnings pass the call
    is the call of the callable after the two warnings. *)
Theorem stacked_decorators_warn_outer_first (outer inner : string) func w0
    (o : pyobject) (old_name : string) :
  heap w0 !! c_id func = Some o ->
  attr_name o = Some old_name ->
  exists c1 w1 c2 w2,
    deprecated_warning inner func w0 = (Ok c1, w1)
    /\ decorate_stacked outer inner func w0 = (Ok c2, w2)
    /\ lookup_attr attr_name (c_id c2) w2 = Some old_name
    /\ forall (args : list value) (kwargs : list (string * value)) w,
        exists m_outer m_inner,
          wrapper_msg c1 old_name outer w = Ok m_outer
          /\ wrapper_msg func old_name inner w = Ok m_inner
          /\ c_call c2 args kwargs w
             = (warnings_warn m_outer FutureWarning ;;;
                warnings_warn m_inner FutureWarning ;;;
                c_call func args kwargs) w
          /\ (filters w (Warning m_outer FutureWarning) <> ActError ->
              filters w (Warning m_inner FutureWarning) <> ActError ->
              c_call c2 args kwargs w
              = c_call func args kwargs
                  (emit (Warning m_inner FutureWarning)
                     (emit (Warning m_outer FutureWarning) w))).
Proof.
  intros Hfunc Hname.
  pose proof (deprecated_warning_run inner _ _ _ _ Hfunc Hname) as Hdec1.
  set (c1 := Callable (wrapper_id w0) (wrapper func old_name inner)) in *.
  set (w1 := set_heap (<[wrapper_id w0 := wrapped_attrs (c_id func) o]> (heap w0)) w0)
    in *.
  assert (heap w1 !! c_id c1 = Some (wrapped_attrs (c_id func) o)) as Hc1.
  { unfold w1, c1. cbn [c_id heap set_heap]. apply lookup_insert_eq. }
  assert (attr_name (wrapped_attrs (c_id func) o) = Some old_name) as Hname1.
  { unfold wrapped_attrs. cbn [attr_name]. by rewrite Hname. }
  pose proof (deprecated_warning_run outer _ _ _ _ Hc1 Hname1) as Hdec2.
  exists c1, w1. eexists _, _. split; [exact Hdec1 |]. split.
  { unfold decorate_stacked, bind. rewrite Hdec1. exact Hdec2. }
  split.
  { unfold lookup_attr. cbn [c_id heap set_heap].
    rewrite lookup_insert_eq. unfold wrapped_attrs at 1. cbn.
    unfold wrapped_attrs. cbn [attr_name]. by rewrite Hname. }
  intros args kwargs w. cbn [c_call].
  destruct (wrapper_msg_run c1 old_name outer args kwargs w)
    as (m_outer & Hm_outer & Hrun_outer).
  destruct (wrapper_msg_run func old_name inner args kwargs w)
    as (m_inner & Hm_inner & _).
  assert (wrapper c1 old_name outer args kwargs w
          = (warnings_warn m_outer FutureWarning ;;;
             warnings_warn m_inner FutureWarning ;;;
             c_call func args kwargs) w) as Hrun.
  { rewrite Hrun_outer.
    destruct (decide (filters w (Warning m_outer FutureWarning) = ActError))
      as [Herr | Hok].
    - by rewrite !warn_then_raises.
    - rewrite !warn_then_returns by done. cbn [c_call c1].
      destruct (wrapper_msg_run func old_name inner args kwargs
                  (emit (Warning m_outer FutureWarning) w))
        as (m & Hm & ->).
      rewrite wrapper_msg_emit in Hm.
      by assert (m = m_inner) as -> by congruence. }
  exists m_outer, m_inner. repeat split; try done.
  intros Hok_outer Hok_inner. rewrite Hrun.
  rewrite warn_then_returns by done. by rewrite warn_then_returns.
Qed.

(** X5: decorating two callables one after the other gives two distinct
    wrappers; after both decorations each wrapper still carries the
    [__name__] of its own callable, and a call of either hands one warning
    built from the old and new name of its own decoration to [warnings.warn]
    and, unless that raises, then runs its own callable. *)
Theorem decorations_are_independent (new_f new_g : string)
    (f g : @callable Ext) w0 (obj_f obj_g : pyobject) (name_f name_g : string) :
  heap w0 !! c_id f = Some obj_f -> attr_name obj_f = Some name_f ->
  heap w0 !! c_id g = Some obj_g -> attr_name obj_g = Some name_g ->
  exists cf cg w2,
    decorate_both new_f new_g f g w0 = (Ok (cf, cg), w2)
    /\ c_id cf <> c_id cg
    /\ lookup_attr attr_name (c_id cf) w2 = Some name_f
    /\ lookup_attr attr_name (c_id cg) w2 = Some name_g
    /\ forall (args : list value) (kwargs : list (string * value)) w,
        (exists msg,
            wrapper_msg f name_f new_f w = Ok msg
            /\ c_call cf args kwargs w
               = (warnings_warn msg FutureWarning ;;; c_call f args kwargs) w)
        /\ (exists msg,
               wrapper_msg g name_g new_g w = Ok msg
               /\ c_call cg args kwargs w
                  = (warnings_warn msg FutureWarning ;;; c_call g args kwargs) w).
Proof.
  intros Hf Hname_f Hg Hname_g.
  pose proof (deprecated_warning_run new_f _ _ _ _ Hf Hname_f) as Hdec_f.
  set (w1 := set_heap (<[wrapper_id w0 := wrapped_attrs (c_id f) obj_f]> (heap w0)) w0)
    in *.
  assert (heap w1 !! c_id g = Some obj_g) as Hg1.
  { unfold w1. cbn [heap set_heap]. rewrite lookup_insert_ne; [done |].
    by apply (wrapper_id_fresh w0 _ obj_g). }
  assert (heap w1 !! wrapper_id w0 = Some (wrapped_attrs (c_id f) obj_f)) as Hwf.
  { unfold w1. cbn [heap set_heap]. apply lookup_insert_eq. }
  pose proof (deprecated_warning_run new_g _ _ _ _ Hg1 Hname_g) as Hdec_g.
  pose proof (wrapper_id_fresh w1 _ _ Hwf) as Hdistinct.
  eexists _, _, _. split.
  { unfold decorate_both, bind, ret. rewrite Hdec_f, Hdec_g. reflexivity. }
  cbn [c_id]. split; [done |]. split; [| split].
  - unfold lookup_attr. cbn [heap set_heap].
    rewrite lookup_insert_ne, Hwf by done.
    unfold wrapped_attrs. cbn. by rewrite Hname_f.
  - unfold lookup_attr. cbn [heap set_heap]. rewrite lookup_insert_eq.
    unfold wrapped_attrs. cbn. by rewrite Hname_g.
  - intros args kwargs w. cbn [c_call]. split; apply wrapper_msg_run.
Qed.

End DecoratorUses.

(** ** Repeated constructions of the substitute class *)

Section ProblemUses.

Context {Ext : Type}.

Variable Problem_init : list value -> list (string * value) -> M Ext loc.

(** X4: when building an instance of [Problem] emits no warning of its own,
    [n] constructions of [problem] in a row without a keyword named [self],
    whatever each returns or raises, add exactly [n] warnings: [n] times the
    same [FutureWarning], whatever the state and the arguments. *)
Theorem problem_warns_n_times (args : list value)
    (kwargs : list (string * value)) (n : nat) (w : World Ext) :
  has_keyword "self" kwargs = false ->
  (forall a k x, warnings_log (snd (Problem_init a k x)) = warnings_log x) ->
  warnings_log (constructions Problem_init args kwargs n w)
  = warnings_log w
    ++ replicate n
         (Warning "The class named 'problem' will soon be deprecated in CyIpopt. Please replace all uses and use 'Problem' going forward."
            FutureWarning).
Proof.
  intros Hself Hquiet. revert w. induction n as [|n IH]; intros w.
  - cbn [constructions replicate]. by rewrite app_nil_r.
  - cbn [constructions]. rewrite IH, (problem_run Problem_init _ _ _ Hself).
    assert (forall x, warnings_log (snd (Problem Problem_init args kwargs x))
                      = warnings_log x) as Hquiet'.
    { intros x. unfold Problem, bind, ret. specialize (Hquiet args kwargs x).
      by destruct (Problem_init args kwargs x) as [[l | e] x']. }
    rewrite (warn_then_log _ _ _ _ Hquiet').
    cbn [replicate]. by rewrite <- app_assoc.
Qed.

End ProblemUses.

(** ** The client module, used repeatedly *)

Lemma old_add_keeps_owner (a : list value) (k : list (string * value))
    (x : World unit) :
  owner_name old_add (snd (c_call old_add a k x)) = owner_name old_add x.
Proof. unfold old_add. cbn [c_call c_id]. by repeat case_match. Qed.

(** Three calls of the decorated [old], the second of which raises. *)
Example decorated_old_add_three_calls :
  let run :=
    (c <- deprecated_warning "new" old_add ;;
     c_call c [VInt 5] [] ;;;
     ((fun w => (Ok tt, snd (c_call c [] [] w))) : M unit unit) ;;;
     c_call c [VInt 1; VInt 2] []) client_world in
  fst run = Ok (VInt 3)
  /\ warnings_log (snd run) = replicate 3 (Warning "The function named 'old' will soon be deprecated in CyIpopt. Please replace all uses and use 'new' going forward." FutureWarning).
Proof. split; vm_compute; reflexivity. Qed.

Lemma wrapper_warns_n_times_witness :
  exists c w1,
    deprecated_warning "new" old_add client_world = (Ok c, w1)
    /\ warnings_log (calls c [VInt 5] [] 3 client_world)
       = replicate 3 (Warning "The function named 'old' will soon be deprecated in CyIpopt. Please replace all uses and use 'new' going forward." FutureWarning)
    /\ warnings_log (calls c [VInt 5] [] 3 strict_world)
       = replicate 3 (Warning "The function named 'old' will soon be deprecated in CyIpopt. Please replace all uses and use 'new' going forward." FutureWarning).
Proof.
  destruct (wrapper_warns_n_times "new" old_add client_world old_function "old"
              eq_refl eq_refl old_add_quiet old_add_keeps_owner)
    as (c & w1 & Hdec & Hcalls).
  exists c, w1. split; [exact Hdec |]. split.
  - destruct (Hcalls [VInt 5] [] 3 client_world) as (msg & Hmsg & Hlog).
    vm_compute in Hmsg. injection Hmsg as <-. exact Hlog.
  - destruct (Hcalls [VInt 5] [] 3 strict_world) as (msg & Hmsg & Hlog).
    vm_compute in Hmsg. injection Hmsg as <-. exact Hlog.
Defined.

(** [old] under two decorators, called with [5]: the outer replacement is
    announced first, and [old(5)] is returned; a caller that turns warnings
    into errors gets the outer warning as the error and nothing more. *)
Example stacked_old_add_5 :
  let run :=
    (c <- decorate_stacked "newest" "new" old_add ;; c_call c [VInt 5] [])
      client_world in
  let strict_run :=
    (c <- decorate_stacked "newest" "new" old_add ;; c_call c [VInt 5] [])
      strict_world in
  fst run = Ok (VInt 7)
  /\ warnings_log (snd run)
     = [Warning "The function named 'old' will soon be deprecated in CyIpopt. Please replace all uses and use 'newest' going forward." FutureWarning; Warning "The function named 'old' will soon be deprecated in CyIpopt. Please replace all uses and use 'new' going forward." FutureWarning]
  /\ fst strict_run = Raise (WarningRaised (Warning "The function named 'old' will soon be deprecated in CyIpopt. Please replace all uses and use 'newest' going forward." FutureWarning))
  /\ warnings_log (snd strict_run) = [Warning "The function named 'old' will soon be deprecated in CyIpopt. Please replace all uses and use 'newest' going forward." FutureWarning].
Proof. repeat split; vm_compute; reflexivity. Qed.

Lemma stacked_decorators_warn_outer_first_witness :
  exists c2 w2,
    decorate_stacked "newest" "new" old_add client_world = (Ok c2, w2)
    /\ lookup_attr attr_name (c_id c2) w2 = Some "old"
    /\ exists m_outer,
        c_call c2 [VInt 5] [] client_world
        = c_call old_add [VInt 5] []
            (emit (Warning "The function named 'old' will soon be deprecated in CyIpopt. Please replace all uses and use 'new' going forward." FutureWarning)
               (emit (Warning m_outer FutureWarning) client_world)).
Proof.
  destruct (stacked_decorators_warn_outer_first "newest" "new" old_add
              client_world old_function "old" eq_refl eq_refl)
    as (c1 & w1 & c2 & w2 & _ & Hdec & Hname & Hcall).
  exists c2, w2. split; [exact Hdec |]. split; [exact Hname |].
  destruct (Hcall [VInt 5] [] client_world)
    as (m_outer & m_inner & _ & Hm_inner & _ & Hrun).
  vm_compute in Hm_inner. injection Hm_inner as <-.
  exists m_outer. apply Hrun; intros Herr; vm_compute in Herr; discriminate Herr.
Defined.

Lemma decorations_are_independent_witness :
  exists cf cg w2,
    decorate_both "new" "newer" old_add older_none two_function_world
    = (Ok (cf, cg), w2)
    /\ c_id cf <> c_id cg
    /\ lookup_attr attr_name (c_id cf) w2 = Some "old"
    /\ lookup_attr attr_name (c_id cg) w2 = Some "older".
Proof.
  destruct (decorations_are_independent "new" "newer" old_add older_none
              two_function_world old_function older_function "old" "older"
              eq_refl eq_refl eq_refl eq_refl)
    as (cf & cg & w2 & Hdec & Hdistinct & Hname_f & Hname_g & _).
  exists cf, cg, w2.
  split; [exact Hdec |]. split; [exact Hdistinct |].
  split; [exact Hname_f | exact Hname_g].
Defined.

Lemma accept_all_quiet (a : list value) (k : list (string * value))
    (x : World unit) :
  warnings_log (snd (accept_all a k x)) = warnings_log x.
Proof. reflexivity. Qed.

Lemma problem_warns_n_times_witness :
  warnings_log
    (constructions accept_all [] [("x", VInt 1); ("y", VInt 2)] 2 client_world)
  = replicate 2 (Warning "The class named 'problem' will soon be deprecated in CyIpopt. Please replace all uses and use 'Problem' going forward." FutureWarning).
Proof.
  apply (problem_warns_n_times accept_all [] [("x", VInt 1); ("y", VInt 2)] 2
           client_world eq_refl accept_all_quiet).
Defined.
